(** * aws-cdk-fargate: the declared resource graph of the two stack variants

    The repository holds one deployment written twice:
    - [backend-api-cdk/lib/aws-cdk-ec2-stack.ts], class [AwsCdkEc2Stack],
      on the first generation of the construct library, with its entry
      point [backend-api-cdk/bin/aws-cdk-ec2.ts];
    - the same stack on the second generation, class [AwsCdkFargateStack].

    Both are a constructor that creates constructs below [this] and calls a
    few mutating methods on them.  The embedding keeps that shape: the
    construct tree of the stack is a store of constructs keyed by their path,
    the constructor is a program in a state-and-error monad over that store,
    and a variable of the source that holds a construct is a reference (the
    path) into the store, so that two uses of one variable denote one
    construct.

    The construct library itself is not part of the repository.  Its calls
    are modelled on its behaviour, each definition marked as such:
    - a constructor records the properties it is handed, a mutating method
      updates the construct it is called on;
    - an id is rewritten the way the library rewrites it, an empty id and
      an id that is taken in its scope are refused, and the name of a stack
      is checked;
    - the lookup of the hosted zone reads the environment of the stack and
      refuses a stack that has none;
    - an application of one generation holds stacks of that generation only.
    Resources and rules the library derives on its own are not modelled.
    The build context of the container image is taken to exist.  The checks
    of the library on names and numbers in properties are not modelled: the
    stack hands it constants only. *)

From Stdlib Require Import String Ascii List ZArith NArith Bool Lia.
Import ListNotations.
Local Open Scope string_scope.
Local Open Scope Z_scope.

(** ** The two generations of the construct library *)

Inductive Variant := CdkV1 | CdkV2.

Definition Variant_eqb (a b : Variant) : bool :=
  match a, b with
  | CdkV1, CdkV1 | CdkV2, CdkV2 => true
  | _, _ => false
  end.

(** ** References to constructs

    A construct is named by the ids on the way from the stack down to it;
    the stack itself ([this]) is the empty path. *)

Definition Ref := list string.

Fixpoint Ref_eqb (a b : Ref) : bool :=
  match a, b with
  | [], [] => true
  | x :: a', y :: b' => String.eqb x y && Ref_eqb a' b'
  | _, _ => false
  end.

(** ** Results of fallible construction

    Modelled from the behaviour of the construct library: the errors it
    throws while a stack is constructed, by kind and without the wording of
    their messages.
    - [EmptyId]: a construct below a scope was given the empty id;
    - [DuplicateStack name]: the application already holds a child [name];
    - [DuplicateName name scope]: the construct at [scope] in the stack
      already holds a child [name];
    - [InvalidStackName name]: the name of the stack is not made of letters,
      digits and hyphens after a first letter;
    - [EnvironmentNotSpecified]: a lookup was asked of a stack whose account
      or region is not specified;
    - [UndefinedDomainName]: the lookup of a hosted zone was given no
      domain name;
    - [NoSuchConstruct], [WrongKind]: a method was called on a reference
      that denotes nothing, or a construct of another kind; the types of the
      source exclude both. *)

Inductive Error :=
| EmptyId
| DuplicateStack (name : string)
| DuplicateName (name : string) (scope : Ref)
| InvalidStackName (name : string)
| EnvironmentNotSpecified
| UndefinedDomainName
| NoSuchConstruct (r : Ref)
| WrongKind (r : Ref).

Inductive Result (A : Type) : Type :=
| OK (a : A)
| Err (e : Error).
Arguments OK {A} a.
Arguments Err {A} e.

(** ** Property records of the construct library, as the stack fills them *)

Inductive SubnetType := PUBLIC | PRIVATE_WITH_NAT | PRIVATE_ISOLATED.

Module SubnetConfiguration.
Record t := mk { cidrMask : Z; name : string; subnetType : SubnetType }.
End SubnetConfiguration.

Module VpcProps.
Record t := mk {
  cidr : string;
  vpcName : string;
  enableDnsHostnames : bool;
  enableDnsSupport : bool;
  subnetConfiguration : list SubnetConfiguration.t }.
End VpcProps.

Module SecurityGroupProps.
Record t := mk { vpc : Ref; securityGroupName : string }.
End SecurityGroupProps.

(** [ec2.Peer] and [ec2.Port]: the source and the port range of a rule. *)
Module Peer.
Inductive t := ipv4 (cidrIp : string) | ipv6 (cidrIpv6 : string).
End Peer.

Inductive Protocol := TCP | UDP | ALL.

Module Port.
Record t := mk { protocol : Protocol; fromPort : Z; toPort : Z }.
(** [Port.tcp(port)]: a single TCP port. *)
Definition tcp (port : Z) : t := mk TCP port port.
End Port.

Module IngressRule.
Record t := mk { peer : Peer.t; connection : Port.t; description : string }.
End IngressRule.

Module HostedZoneProviderProps.
Record t := mk { domainName : string }.
End HostedZoneProviderProps.

Module DnsValidatedCertificateProps.
Record t := mk {
  certificateName : option string;
  domainName : string;
  hostedZone : Ref;
  region : string }.
End DnsValidatedCertificateProps.

Module ApplicationLoadBalancerProps.
Record t := mk {
  vpc : Ref;
  internetFacing : bool;
  securityGroup : Ref;
  loadBalancerName : string }.
End ApplicationLoadBalancerProps.

(** [cert.certificateArn] is a value that is known at deployment only; it
    is kept as the attribute of the construct it is read from. *)
Inductive Arn := certificateArn_of (certificate : Ref) | ArnLiteral (arn : string).

Module ListenerCertificate.
Record t := mk { certificateArn : Arn }.
End ListenerCertificate.

Module BaseApplicationListenerProps.
Record t := mk { port : Z; certificates : list ListenerCertificate.t }.
End BaseApplicationListenerProps.

Inductive TargetType := INSTANCE | IP | LAMBDA.
Inductive ApplicationProtocol := HTTP | HTTPS.

Module HealthCheck.
Record t := mk { path : string; healthyHttpCodes : string }.
End HealthCheck.

Module ApplicationTargetGroupProps.
Record t := mk {
  vpc : Ref;
  port : Z;
  targetType : TargetType;
  protocol : ApplicationProtocol;
  targetGroupName : string;
  healthCheck : HealthCheck.t }.
End ApplicationTargetGroupProps.

Module AddApplicationTargetGroupsProps.
Record t := mk { targetGroups : list Ref; priority : option Z }.
End AddApplicationTargetGroupsProps.

Inductive ListenerAction := forward (targetGroups : list Ref).

Module ClusterProps.
Record t := mk { vpc : Ref; clusterName : string }.
End ClusterProps.

Module FargateTaskDefinitionProps.
Record t := mk { memoryLimitMiB : Z; cpu : Z }.
End FargateTaskDefinitionProps.

Inductive ContainerImage := fromAsset (directory : string) | fromRegistry (name : string).

(** Modelled from the spec: the enumeration [RetentionDays] of the construct
    library is not in the repository.  Its members are numbers of days; the
    spec gives the retention the stack asks for, [ONE_MONTH], as 30 days. *)
Inductive RetentionDays := ONE_DAY | ONE_WEEK | TWO_WEEKS | ONE_MONTH | ONE_YEAR.

Definition RetentionDays_days (r : RetentionDays) : Z :=
  match r with
  | ONE_DAY => 1
  | ONE_WEEK => 7
  | TWO_WEEKS => 14
  | ONE_MONTH => 30
  | ONE_YEAR => 365
  end.

Module AwsLogDriverProps.
Record t := mk { streamPrefix : string; logRetention : RetentionDays }.
End AwsLogDriverProps.

Inductive LogDriver := awsLogs (props : AwsLogDriverProps.t).

Module ContainerDefinitionOptions.
Record t := mk { containerName : string; image : ContainerImage; logging : LogDriver }.
End ContainerDefinitionOptions.

Module PortMapping.
Record t := mk { containerPort : Z; hostPort : Z }.
End PortMapping.

Module FargateServiceProps.
Record t := mk {
  cluster : Ref;
  serviceName : string;
  taskDefinition : Ref;
  desiredCount : Z;
  assignPublicIp : bool;
  securityGroups : list Ref }.
End FargateServiceProps.

Inductive AliasRecordTarget := LoadBalancerTarget (loadBalancer : Ref).

Module RecordTarget.
Inductive t :=
| fromAlias (aliasTarget : AliasRecordTarget)
| fromIpAddresses (ipAddresses : list string)
| fromValues (values : list string).
End RecordTarget.

Module ARecordProps.
Record t := mk { zone : Ref; recordName : string; target : RecordTarget.t }.
End ARecordProps.

Module Environment.
Record t := mk { account : option string; region : option string }.
End Environment.

(** Of the properties of a stack the model keeps the environment, the one
    property that a call of the constructor reads. *)
Module StackProps.
Record t := mk { env : option Environment.t }.
End StackProps.


(** ** Constructs

    One constructor per kind of construct the stack creates.  What the
    mutating methods add to a construct after its creation is kept next to
    its properties; a looked-up hosted zone keeps the account and the region
    it was looked up in. *)

Inductive Construct :=
| Vpc (props : VpcProps.t)
| SecurityGroup (props : SecurityGroupProps.t) (ingressRules : list IngressRule.t)
| HostedZoneLookup (query : HostedZoneProviderProps.t) (account region : string)
| DnsValidatedCertificate (props : DnsValidatedCertificateProps.t)
| ApplicationLoadBalancer (props : ApplicationLoadBalancerProps.t)
| ApplicationListener (loadBalancer : Ref) (props : BaseApplicationListenerProps.t)
    (defaultAction : option ListenerAction)
| ApplicationListenerRule (listener : Ref) (props : AddApplicationTargetGroupsProps.t)
| ApplicationTargetGroup (props : ApplicationTargetGroupProps.t)
| Cluster (props : ClusterProps.t)
| FargateTaskDefinition (props : FargateTaskDefinitionProps.t)
| ContainerDefinition (taskDefinition : Ref) (props : ContainerDefinitionOptions.t)
    (portMappings : list PortMapping.t)
| FargateService (props : FargateServiceProps.t) (loadBalancers : list Ref)
| ARecord (props : ARecordProps.t).

(** ** The construct tree and the construction monad *)

Definition Tree := list (Ref * Construct).

Fixpoint lookup (r : Ref) (t : Tree) : option Construct :=
  match t with
  | [] => None
  | (r', c) :: t' => if Ref_eqb r r' then Some c else lookup r t'
  end.

(** What a call of the library can read besides the tree: the generation
    of the library the stack is written against, and the environment the
    stack was given. *)
Record Context := mkContext {
  library : Variant;
  environment : option Environment.t }.

Definition M (A : Type) : Type := Context -> Tree -> Result (A * Tree).

Definition ret {A} (a : A) : M A := fun _ t => OK (a, t).

Definition bind {A B} (m : M A) (k : A -> M B) : M B :=
  fun ctx t =>
    match m ctx t with
    | OK (a, t') => k a ctx t'
    | Err e => Err e
    end.

Notation "x <- m ;; k" := (bind m (fun x => k))
  (at level 61, m at next level, right associativity).
Notation "m ;;; k" := (bind m (fun _ => k))
  (at level 61, right associativity).

(** ** Ids, names and tokens *)

(** Modelled from the behaviour of the construct library: in an id every
    path separator [/] is rewritten to [--]. *)
Fixpoint sanitizeId (id : string) : string :=
  match id with
  | EmptyString => EmptyString
  | String c id' =>
      if Ascii.eqb c "/"
      then String "-" (String "-" (sanitizeId id'))
      else String c (sanitizeId id')
  end.

Definition isLetter (c : ascii) : bool :=
  let n := N_of_ascii c in
  (((65 <=? n) && (n <=? 90)) || ((97 <=? n) && (n <=? 122)))%N.

Definition isDigit (c : ascii) : bool :=
  let n := N_of_ascii c in
  ((48 <=? n) && (n <=? 57))%N.

Definition isNameChar (c : ascii) : bool :=
  isLetter c || isDigit c || Ascii.eqb c "-".

Fixpoint allChars (f : ascii -> bool) (s : string) : bool :=
  match s with
  | EmptyString => true
  | String c s' => f c && allChars f s'
  end.

(** Modelled from the behaviour of the construct library: the name of a
    stack is a letter followed by letters, digits and hyphens. *)
Definition validStackName (name : string) : bool :=
  match name with
  | EmptyString => false
  | String c name' => isLetter c && allChars isNameChar name'
  end.

Fixpoint startsWith (marker s : string) : bool :=
  match marker, s with
  | EmptyString, _ => true
  | String a marker', String b s' => Ascii.eqb a b && startsWith marker' s'
  | String _ _, EmptyString => false
  end.

(** Modelled from the behaviour of the construct library: a string that
    holds the marker of a token stands for a value that is known at
    deployment only. *)
Fixpoint isUnresolved (s : string) : bool :=
  match s with
  | EmptyString => false
  | String _ s' => startsWith "${Token[" s || isUnresolved s'
  end.

(** The value of an account or a region, when it is specified. *)
Definition specified (x : option string) : option string :=
  match x with
  | Some s => if isUnresolved s then None else Some s
  | None => None
  end.

Definition stackAccount (ctx : Context) : option string :=
  match environment ctx with
  | Some e => specified (Environment.account e)
  | None => None
  end.

Definition stackRegion (ctx : Context) : option string :=
  match environment ctx with
  | Some e => specified (Environment.region e)
  | None => None
  end.

(** ** Creating and changing constructs *)

(** Modelled from the behaviour of the construct library.
    [new C(scope, id, ...)]: the construct becomes the child of [scope]
    under its id, rewritten; the empty id is refused, and so is an id that a
    child of the scope already has. *)
Definition new_construct (scope : Ref) (id : string) (c : Construct) : M Ref :=
  fun _ t =>
    if String.eqb id EmptyString then Err EmptyId
    else
      let name := sanitizeId id in
      let r := (scope ++ [name])%list in
      match lookup r t with
      | Some _ => Err (DuplicateName name scope)
      | None => OK (r, (t ++ [(r, c)])%list)
      end.

(** A mutating method: replaces the construct a reference denotes. *)
Fixpoint update (r : Ref) (f : Construct -> Result Construct) (t : Tree) : Result Tree :=
  match t with
  | [] => Err (NoSuchConstruct r)
  | (r', c) :: t' =>
      if Ref_eqb r r' then
        match f c with
        | OK c' => OK ((r', c') :: t')
        | Err e => Err e
        end
      else
        match update r f t' with
        | OK t'' => OK ((r', c) :: t'')
        | Err e => Err e
        end
  end.

Definition mutate (r : Ref) (f : Construct -> Result Construct) : M unit :=
  fun _ t =>
    match update r f t with
    | OK t' => OK (tt, t')
    | Err e => Err e
    end.

(** ** The calls of the construct library the stack makes

    Each is modelled from the behaviour of the construct library. *)

Definition new_Vpc (scope : Ref) (id : string) (props : VpcProps.t) : M Ref :=
  new_construct scope id (Vpc props).

Definition new_SecurityGroup (scope : Ref) (id : string) (props : SecurityGroupProps.t) : M Ref :=
  new_construct scope id (SecurityGroup props []).

(** [securityGroup.addIngressRule(peer, connection, description)] *)
Definition addIngressRule (sg : Ref) (peer : Peer.t) (connection : Port.t)
    (description : string) : M unit :=
  mutate sg (fun c =>
    match c with
    | SecurityGroup props rules =>
        OK (SecurityGroup props (rules ++ [IngressRule.mk peer connection description]))
    | _ => Err (WrongKind sg)
    end).

(** [HostedZone.fromLookup(scope, id, query)]: the zone is looked up in
    the account and the region of the stack, and the lookup is refused when
    one of the two is not specified.  The second generation of the library
    first refuses a query without a domain name. *)
Definition HostedZone_fromLookup (scope : Ref) (id : string)
    (query : HostedZoneProviderProps.t) : M Ref :=
  fun ctx t =>
    if Variant_eqb (library ctx) CdkV2 &&
       String.eqb (HostedZoneProviderProps.domainName query) EmptyString
    then Err UndefinedDomainName
    else
      match stackAccount ctx, stackRegion ctx with
      | Some account, Some region =>
          new_construct scope id (HostedZoneLookup query account region) ctx t
      | _, _ => Err EnvironmentNotSpecified
      end.

Definition new_DnsValidatedCertificate (scope : Ref) (id : string)
    (props : DnsValidatedCertificateProps.t) : M Ref :=
  new_construct scope id (DnsValidatedCertificate props).

(** [cert.certificateArn] *)
Definition certificateArn (cert : Ref) : Arn := certificateArn_of cert.

Definition new_ApplicationLoadBalancer (scope : Ref) (id : string)
    (props : ApplicationLoadBalancerProps.t) : M Ref :=
  new_construct scope id (ApplicationLoadBalancer props).

(** [alb.addListener(id, props)]: the listener is a child of the balancer. *)
Definition addListener (alb : Ref) (id : string) (props : BaseApplicationListenerProps.t) : M Ref :=
  fun ctx t =>
    match lookup alb t with
    | Some (ApplicationLoadBalancer _) =>
        new_construct alb id (ApplicationListener alb props None) ctx t
    | Some _ => Err (WrongKind alb)
    | None => Err (NoSuchConstruct alb)
    end.

Definition new_ApplicationTargetGroup (scope : Ref) (id : string)
    (props : ApplicationTargetGroupProps.t) : M Ref :=
  new_construct scope id (ApplicationTargetGroup props).

(** [listener.addTargetGroups(id, props)]: with a priority the groups go
    into a rule of their own, a child of the listener; without one they
    become the default action of the listener. *)
Definition addTargetGroups (listener : Ref) (id : string)
    (props : AddApplicationTargetGroupsProps.t) : M unit :=
  match AddApplicationTargetGroupsProps.priority props with
  | Some _ =>
      _ <- new_construct listener (id ++ "Rule") (ApplicationListenerRule listener props) ;;
      ret tt
  | None =>
      mutate listener (fun c =>
        match c with
        | ApplicationListener lb lprops _ =>
            OK (ApplicationListener lb lprops
                  (Some (forward (AddApplicationTargetGroupsProps.targetGroups props))))
        | _ => Err (WrongKind listener)
        end)
  end.

Definition new_Cluster (scope : Ref) (id : string) (props : ClusterProps.t) : M Ref :=
  new_construct scope id (Cluster props).

Definition new_FargateTaskDefinition (scope : Ref) (id : string)
    (props : FargateTaskDefinitionProps.t) : M Ref :=
  new_construct scope id (FargateTaskDefinition props).

(** [taskDefinition.addContainer(id, props)]: the container is a child of
    the task definition. *)
Definition addContainer (taskDef : Ref) (id : string)
    (props : ContainerDefinitionOptions.t) : M Ref :=
  fun ctx t =>
    match lookup taskDef t with
    | Some (FargateTaskDefinition _) =>
        new_construct taskDef id (ContainerDefinition taskDef props []) ctx t
    | Some _ => Err (WrongKind taskDef)
    | None => Err (NoSuchConstruct taskDef)
    end.

(** [container.addPortMappings(...portMappings)] *)
Definition addPortMappings (container : Ref) (mappings : list PortMapping.t) : M unit :=
  mutate container (fun c =>
    match c with
    | ContainerDefinition td props pms => OK (ContainerDefinition td props (pms ++ mappings))
    | _ => Err (WrongKind container)
    end).

Definition new_FargateService (scope : Ref) (id : string) (props : FargateServiceProps.t) : M Ref :=
  new_construct scope id (FargateService props []).

(** [service.attachToApplicationTargetGroup(targetGroup)]: the service
    registers itself with the target group. *)
Definition attachToApplicationTargetGroup (service : Ref) (targetGroup : Ref) : M unit :=
  fun ctx t =>
    match lookup targetGroup t with
    | Some (ApplicationTargetGroup _) =>
        mutate service (fun c =>
          match c with
          | FargateService props lbs => OK (FargateService props (lbs ++ [targetGroup]))
          | _ => Err (WrongKind service)
          end) ctx t
    | Some _ => Err (WrongKind targetGroup)
    | None => Err (NoSuchConstruct targetGroup)
    end.

Definition new_ARecord (scope : Ref) (id : string) (props : ARecordProps.t) : M Ref :=
  new_construct scope id (ARecord props).

(** ** Stacks and the application that holds them *)

Record Stack := mkStack {
  stackId : string;
  stackProps : option StackProps.t;
  tree : Tree }.

(** An application of one generation of the library: a stack of the other
    generation is no child of it. *)
Record App (v : Variant) := mkApp { stacks : list Stack }.
Arguments stacks {v} _.

(** [new cdk.App()] *)
Definition new_App (v : Variant) : App v := mkApp v [].

Definition hasChild {v} (scope : App v) (name : string) : bool :=
  existsb (fun s => String.eqb (stackId s) name) (stacks scope).

Definition envOf (props : option StackProps.t) : option Environment.t :=
  match props with
  | Some p => StackProps.env p
  | None => None
  end.

(** Modelled from the behaviour of the construct library.  A class that
    extends [Stack]: [super(scope, id, props)] makes the stack the child of
    [scope] under its id, rewritten, with an empty tree; the empty id, an id
    the scope already holds and a name that is no stack name are refused.
    Then the body of the constructor runs on the stack, with the environment
    of its properties.  The result is the stack and the scope that now holds
    it. *)
Definition new_Stack (v : Variant) (body : M unit) (scope : App v) (id : string)
    (props : option StackProps.t) : Result (Stack * App v) :=
  if String.eqb id EmptyString then Err EmptyId
  else
    let name := sanitizeId id in
    if hasChild scope name then Err (DuplicateStack name)
    else if negb (validStackName name) then Err (InvalidStackName name)
    else
      match body (mkContext v (envOf props)) [] with
      | OK (_, t) =>
          let this := mkStack name props t in
          OK (this, mkApp v (stacks scope ++ [this])%list)
      | Err e => Err e
      end.

(** ** The stack on the first generation of the library
    ([backend-api-cdk/lib/aws-cdk-ec2-stack.ts]) *)

Module Ec2Stack.

Definition domainName : string := "nikolatec.com".

Definition projectName : string := "backend-api".

Definition constructor : M unit :=
  let this : Ref := [] in
  vpc <- new_Vpc this (projectName ++ "-vpc")
    {| VpcProps.cidr := "10.1.0.0/16";
       VpcProps.vpcName := projectName ++ "-vpc";
       VpcProps.enableDnsHostnames := true;
       VpcProps.enableDnsSupport := true;
       VpcProps.subnetConfiguration :=
         [ {| SubnetConfiguration.cidrMask := 24;
              SubnetConfiguration.name := "PublicSubnet";
              SubnetConfiguration.subnetType := PUBLIC |};
           {| SubnetConfiguration.cidrMask := 24;
              SubnetConfiguration.name := "PrivateIsolatedSubnet";
              SubnetConfiguration.subnetType := PRIVATE_ISOLATED |} ] |} ;;
  securityGroupELB <- new_SecurityGroup this (projectName ++ "-security-group-elb")
    {| SecurityGroupProps.vpc := vpc;
       SecurityGroupProps.securityGroupName := projectName ++ "-security-group-elb" |} ;;
  addIngressRule securityGroupELB
    (Peer.ipv4 "0.0.0.0/0")
    (Port.tcp 443)
    "allow HTTPS traffic from anywhere" ;;;
  securityGroupApp <- new_SecurityGroup this (projectName ++ "-security-group-app")
    {| SecurityGroupProps.vpc := vpc;
       SecurityGroupProps.securityGroupName := projectName ++ "-security-group-app" |} ;;
  hostedZone <- HostedZone_fromLookup this (projectName ++ "-hosted-zone")
    {| HostedZoneProviderProps.domainName := domainName |} ;;
  cert <- new_DnsValidatedCertificate this (projectName ++ "-certificate")
    {| DnsValidatedCertificateProps.certificateName := None;
       DnsValidatedCertificateProps.domainName := domainName;
       DnsValidatedCertificateProps.hostedZone := hostedZone;
       DnsValidatedCertificateProps.region := "us-east-1" |} ;;
  alb <- new_ApplicationLoadBalancer this (projectName ++ "-alb")
    {| ApplicationLoadBalancerProps.vpc := vpc;
       ApplicationLoadBalancerProps.internetFacing := true;
       ApplicationLoadBalancerProps.securityGroup := securityGroupELB;
       ApplicationLoadBalancerProps.loadBalancerName := projectName ++ "-alb" |} ;;
  listenerHTTP <- addListener alb (projectName ++ "-listener-http")
    {| BaseApplicationListenerProps.port := 443;
       BaseApplicationListenerProps.certificates :=
         [ {| ListenerCertificate.certificateArn := certificateArn cert |} ] |} ;;
  targetGroup <- new_ApplicationTargetGroup this (projectName ++ "-target-group")
    {| ApplicationTargetGroupProps.vpc := vpc;
       ApplicationTargetGroupProps.port := 3000;
       ApplicationTargetGroupProps.targetType := IP;
       ApplicationTargetGroupProps.protocol := HTTP;
       ApplicationTargetGroupProps.targetGroupName := projectName ++ "-target-group";
       ApplicationTargetGroupProps.healthCheck :=
         {| HealthCheck.path := "/";
            HealthCheck.healthyHttpCodes := "200" |} |} ;;
  addTargetGroups listenerHTTP (projectName ++ "-default-https-response")
    {| AddApplicationTargetGroupsProps.targetGroups := [targetGroup];
       AddApplicationTargetGroupsProps.priority := None |} ;;;
  cluster <- new_Cluster this (projectName ++ "-cluster")
    {| ClusterProps.vpc := vpc;
       ClusterProps.clusterName := projectName ++ "-cluster" |} ;;
  fargateTaskDefinition <- new_FargateTaskDefinition this (projectName ++ "-task-def")
    {| FargateTaskDefinitionProps.memoryLimitMiB := 1024;
       FargateTaskDefinitionProps.cpu := 512 |} ;;
  container <- addContainer fargateTaskDefinition (projectName ++ "-container")
    {| ContainerDefinitionOptions.containerName := projectName ++ "-container";
       ContainerDefinitionOptions.image := fromAsset "../backend-api";
       ContainerDefinitionOptions.logging :=
         awsLogs {| AwsLogDriverProps.streamPrefix := "nest-app";
                    AwsLogDriverProps.logRetention := ONE_MONTH |} |} ;;
  addPortMappings container
    [ {| PortMapping.containerPort := 3000;
         PortMapping.hostPort := 3000 |} ] ;;;
  service <- new_FargateService this (projectName ++ "-service")
    {| FargateServiceProps.cluster := cluster;
       FargateServiceProps.serviceName := projectName ++ "-service";
       FargateServiceProps.taskDefinition := fargateTaskDefinition;
       FargateServiceProps.desiredCount := 1;
       FargateServiceProps.assignPublicIp := true;
       FargateServiceProps.securityGroups := [securityGroupApp] |} ;;
  attachToApplicationTargetGroup service targetGroup ;;;
  _ <- new_ARecord this (projectName ++ "-alias-record")
    {| ARecordProps.zone := hostedZone;
       ARecordProps.recordName := "backend." ++ domainName;
       ARecordProps.target :=
         RecordTarget.fromAlias (LoadBalancerTarget alb) |} ;;
  ret tt.

Definition AwsCdkEc2Stack :
    App CdkV1 -> string -> option StackProps.t -> Result (Stack * App CdkV1) :=
  new_Stack CdkV1 constructor.

(** [backend-api-cdk/bin/aws-cdk-ec2.ts] *)
Definition main : Result (Stack * App CdkV1) :=
  let app := new_App CdkV1 in
  AwsCdkEc2Stack app "AwsCdkEc2Stack" None.

End Ec2Stack.

(** ** The stack on the second generation of the library *)

Module FargateStack.

Definition domainName : string := "nikolatec.com".

Definition projectName : string := "backend-api".

Definition constructor : M unit :=
  let this : Ref := [] in
  vpc <- new_Vpc this (projectName ++ "-vpc")
    {| VpcProps.cidr := "10.1.0.0/16";
       VpcProps.vpcName := projectName ++ "-vpc";
       VpcProps.enableDnsHostnames := true;
       VpcProps.enableDnsSupport := true;
       VpcProps.subnetConfiguration :=
         [ {| SubnetConfiguration.cidrMask := 24;
              SubnetConfiguration.name := "PublicSubnet";
              SubnetConfiguration.subnetType := PUBLIC |};
           {| SubnetConfiguration.cidrMask := 24;
              SubnetConfiguration.name := "PrivateIsolatedSubnet";
              SubnetConfiguration.subnetType := PRIVATE_ISOLATED |} ] |} ;;
  securityGroupELB <- new_SecurityGroup this (projectName ++ "-security-group-elb")
    {| SecurityGroupProps.vpc := vpc;
       SecurityGroupProps.securityGroupName := projectName ++ "-security-group-elb" |} ;;
  addIngressRule securityGroupELB
    (Peer.ipv4 "0.0.0.0/0")
    (Port.tcp 443)
    "allow HTTPS traffic from anywhere" ;;;
  securityGroupApp <- new_SecurityGroup this (projectName ++ "-security-group-app")
    {| SecurityGroupProps.vpc := vpc;
       SecurityGroupProps.securityGroupName := projectName ++ "-security-group-app" |} ;;
  hostedZone <- HostedZone_fromLookup this (projectName ++ "-hosted-zone")
    {| HostedZoneProviderProps.domainName := domainName |} ;;
  cert <- new_DnsValidatedCertificate this (projectName ++ "-certificate")
    {| DnsValidatedCertificateProps.certificateName := Some (projectName ++ "-certificate");
       DnsValidatedCertificateProps.domainName := domainName;
       DnsValidatedCertificateProps.hostedZone := hostedZone;
       DnsValidatedCertificateProps.region := "us-east-1" |} ;;
  alb <- new_ApplicationLoadBalancer this (projectName ++ "-alb")
    {| ApplicationLoadBalancerProps.vpc := vpc;
       ApplicationLoadBalancerProps.internetFacing := true;
       ApplicationLoadBalancerProps.securityGroup := securityGroupELB;
       ApplicationLoadBalancerProps.loadBalancerName := projectName ++ "-alb" |} ;;
  listenerHTTP <- addListener alb (projectName ++ "-listener-http")
    {| BaseApplicationListenerProps.port := 443;
       BaseApplicationListenerProps.certificates :=
         [ {| ListenerCertificate.certificateArn := certificateArn cert |} ] |} ;;
  targetGroup <- new_ApplicationTargetGroup this (projectName ++ "-target-group")
    {| ApplicationTargetGroupProps.vpc := vpc;
       ApplicationTargetGroupProps.port := 3000;
       ApplicationTargetGroupProps.targetType := IP;
       ApplicationTargetGroupProps.protocol := HTTP;
       ApplicationTargetGroupProps.targetGroupName := projectName ++ "-target-group";
       ApplicationTargetGroupProps.healthCheck :=
         {| HealthCheck.path := "/";
            HealthCheck.healthyHttpCodes := "200" |} |} ;;
  addTargetGroups listenerHTTP (projectName ++ "-default-https-response")
    {| AddApplicationTargetGroupsProps.targetGroups := [targetGroup];
       AddApplicationTargetGroupsProps.priority := None |} ;;;
  cluster <- new_Cluster this (projectName ++ "-cluster")
    {| ClusterProps.vpc := vpc;
       ClusterProps.clusterName := projectName ++ "-cluster" |} ;;
  fargateTaskDefinition <- new_FargateTaskDefinition this (projectName ++ "-task-def")
    {| FargateTaskDefinitionProps.memoryLimitMiB := 1024;
       FargateTaskDefinitionProps.cpu := 512 |} ;;
  container <- addContainer fargateTaskDefinition (projectName ++ "-container")
    {| ContainerDefinitionOptions.containerName := projectName ++ "-container";
       ContainerDefinitionOptions.image := fromAsset "../backend-api";
       ContainerDefinitionOptions.logging :=
         awsLogs {| AwsLogDriverProps.streamPrefix := "nest-app";
                    AwsLogDriverProps.logRetention := ONE_MONTH |} |} ;;
  addPortMappings container
    [ {| PortMapping.containerPort := 3000;
         PortMapping.hostPort := 3000 |} ] ;;;
  service <- new_FargateService this (projectName ++ "-service")
    {| FargateServiceProps.cluster := cluster;
       FargateServiceProps.serviceName := projectName ++ "-service";
       FargateServiceProps.taskDefinition := fargateTaskDefinition;
       FargateServiceProps.desiredCount := 1;
       FargateServiceProps.assignPublicIp := true;
       FargateServiceProps.securityGroups := [securityGroupApp] |} ;;
  attachToApplicationTargetGroup service targetGroup ;;;
  _ <- new_ARecord this (projectName ++ "-alias-record")
    {| ARecordProps.zone := hostedZone;
       ARecordProps.recordName := "backend." ++ domainName;
       ARecordProps.target :=
         RecordTarget.fromAlias (LoadBalancerTarget alb) |} ;;
  ret tt.

Definition AwsCdkFargateStack :
    App CdkV2 -> string -> option StackProps.t -> Result (Stack * App CdkV2) :=
  new_Stack CdkV2 constructor.

End FargateStack.

(** ** The two variants side by side *)

Definition constructorOf (v : Variant) : M unit :=
  match v with
  | CdkV1 => Ec2Stack.constructor
  | CdkV2 => FargateStack.constructor
  end.

Definition domainNameOf (v : Variant) : string :=
  match v with
  | CdkV1 => Ec2Stack.domainName
  | CdkV2 => FargateStack.domainName
  end.

Definition projectNameOf (v : Variant) : string :=
  match v with
  | CdkV1 => Ec2Stack.projectName
  | CdkV2 => FargateStack.projectName
  end.

(** The class of each variant. *)
Definition stackOf (v : Variant) :
    App v -> string -> option StackProps.t -> Result (Stack * App v) :=
  match v with
  | CdkV1 => Ec2Stack.AwsCdkEc2Stack
  | CdkV2 => FargateStack.AwsCdkFargateStack
  end.

(** ** Constructions with an environment *)

(** The properties of a stack that is deployed to an account and a region. *)
Definition deployedTo (account region : string) : option StackProps.t :=
  Some {| StackProps.env :=
            Some {| Environment.account := Some account;
                    Environment.region := Some region |} |}.

(** An account or a region written out: letters, digits and hyphens, at
    least one. *)
Definition plainName (s : string) : bool :=
  negb (String.eqb s EmptyString) && allChars isNameChar s.

(** The constructions the properties below are about: the id is a stack
    name that the scope does not hold yet, the account and the region are
    written out. *)
Definition constructible {v} (scope : App v) (id account region : string) : bool :=
  negb (hasChild scope id) && validStackName id &&
  plainName account && plainName region.

(** The properties of the stack leave the account or the region open. *)
Definition lacksAccountOrRegion (props : option StackProps.t) : bool :=
  match envOf props with
  | Some e =>
      match Environment.account e, Environment.region e with
      | Some _, Some _ => false
      | _, _ => true
      end
  | None => true
  end.

(** The tree a constructor body leaves behind when it runs on a new stack
    in a context. *)
Definition synthesized (body : M unit) (ctx : Context) : Tree :=
  match body ctx [] with
  | OK (_, t) => t
  | Err _ => []
  end.

(** The tree of a variant that is deployed to an account and a region. *)
Definition declared (v : Variant) (account region : string) : Tree :=
  synthesized (constructorOf v) (mkContext v (envOf (deployedTo account region))).

(** ** Reading a construct tree *)

(** The constructs of one kind, in the order of their creation. *)
Fixpoint select {A} (kind : Construct -> option A) (t : Tree) : list (Ref * A) :=
  match t with
  | [] => []
  | (r, c) :: t' =>
      match kind c with
      | Some a => (r, a) :: select kind t'
      | None => select kind t'
      end
  end.

Definition asSecurityGroup (c : Construct) :=
  match c with SecurityGroup p rules => Some (p, rules) | _ => None end.
Definition asCertificate (c : Construct) :=
  match c with DnsValidatedCertificate p => Some p | _ => None end.
Definition asLoadBalancer (c : Construct) :=
  match c with ApplicationLoadBalancer p => Some p | _ => None end.
Definition asListener (c : Construct) :=
  match c with ApplicationListener lb p action => Some (lb, p, action) | _ => None end.
Definition asListenerRule (c : Construct) :=
  match c with ApplicationListenerRule l p => Some (l, p) | _ => None end.
Definition asTargetGroup (c : Construct) :=
  match c with ApplicationTargetGroup p => Some p | _ => None end.
Definition asTaskDefinition (c : Construct) :=
  match c with FargateTaskDefinition p => Some p | _ => None end.
Definition asContainer (c : Construct) :=
  match c with ContainerDefinition td p pms => Some (td, p, pms) | _ => None end.
Definition asService (c : Construct) :=
  match c with FargateService p lbs => Some (p, lbs) | _ => None end.
Definition asARecord (c : Construct) :=
  match c with ARecord p => Some p | _ => None end.

(** The certificate display name is the one property that only one of the
    variants sets; [withoutCertificateName] forgets it. *)
Definition withoutCertificateName (c : Construct) : Construct :=
  match c with
  | DnsValidatedCertificate p =>
      DnsValidatedCertificate
        (DnsValidatedCertificateProps.mk None
           (DnsValidatedCertificateProps.domainName p)
           (DnsValidatedCertificateProps.hostedZone p)
           (DnsValidatedCertificateProps.region p))
  | _ => c
  end.

Definition Tree_withoutCertificateName (t : Tree) : Tree :=
  map (fun rc => (fst rc, withoutCertificateName (snd rc))) t.

(** The display name the properties of a construct give it, where they
    give one. *)
Definition displayName (c : Construct) : option string :=
  match c with
  | Vpc p => Some (VpcProps.vpcName p)
  | SecurityGroup p _ => Some (SecurityGroupProps.securityGroupName p)
  | DnsValidatedCertificate p => DnsValidatedCertificateProps.certificateName p
  | ApplicationLoadBalancer p => Some (ApplicationLoadBalancerProps.loadBalancerName p)
  | ApplicationTargetGroup p => Some (ApplicationTargetGroupProps.targetGroupName p)
  | Cluster p => Some (ClusterProps.clusterName p)
  | ContainerDefinition _ p _ => Some (ContainerDefinitionOptions.containerName p)
  | FargateService p _ => Some (FargateServiceProps.serviceName p)
  | HostedZoneLookup _ _ _
  | ApplicationListener _ _ _
  | ApplicationListenerRule _ _
  | FargateTaskDefinition _
  | ARecord _ => None
  end.


(** ** The status codes a health check accepts

    The load balancer reads [healthyHttpCodes] as a list of codes and ranges of
    codes separated by commas, as in ["200"], ["200,202"] or ["200-299"]. *)

Definition digit (c : ascii) : option Z :=
  let n := Z.of_nat (nat_of_ascii c) in
  if (48 <=? n) && (n <=? 57) then Some (n - 48) else None.

Fixpoint number_from (acc : Z) (s : string) : option Z :=
  match s with
  | EmptyString => Some acc
  | String c s' =>
      match digit c with
      | Some dgt => number_from (10 * acc + dgt) s'
      | None => None
      end
  end.

Definition number (s : string) : option Z :=
  match s with
  | EmptyString => None
  | _ => number_from 0 s
  end.

Fixpoint string_rev_onto (s acc : string) : string :=
  match s with
  | EmptyString => acc
  | String c s' => string_rev_onto s' (String c acc)
  end.

(** [split_at sep cur s]: the pieces of [s] between occurrences of [sep];
    [cur] is the piece being read, last character first. *)
Fixpoint split_at (sep : ascii) (cur : string) (s : string) : list string :=
  match s with
  | EmptyString => [string_rev_onto cur EmptyString]
  | String c s' =>
      if Ascii.eqb c sep
      then string_rev_onto cur EmptyString :: split_at sep EmptyString s'
      else split_at sep (String c cur) s'
  end.

Definition codeRange (piece : string) : option (Z * Z) :=
  match split_at "-"%char EmptyString piece with
  | [one] =>
      match number one with
      | Some n => Some (n, n)
      | None => None
      end
  | [lo; hi] =>
      match number lo, number hi with
      | Some l, Some h => Some (l, h)
      | _, _ => None
      end
  | _ => None
  end.

Definition codeRanges (matcher : string) : list (option (Z * Z)) :=
  map codeRange (split_at ","%char EmptyString matcher).

Definition acceptsCode (matcher : string) (code : Z) : bool :=
  existsb
    (fun r =>
       match r with
       | Some (lo, hi) => (lo <=? code) && (code <=? hi)
       | None => false
       end)
    (codeRanges matcher).

(** ** Kinds of constructs and the references between them *)

Inductive Kind :=
| KVpc | KSecurityGroup | KHostedZone | KCertificate | KLoadBalancer
| KListener | KListenerRule | KTargetGroup | KCluster | KTaskDefinition
| KContainer | KService | KARecord.

Definition kindOf (c : Construct) : Kind :=
  match c with
  | Vpc _ => KVpc
  | SecurityGroup _ _ => KSecurityGroup
  | HostedZoneLookup _ _ _ => KHostedZone
  | DnsValidatedCertificate _ => KCertificate
  | ApplicationLoadBalancer _ => KLoadBalancer
  | ApplicationListener _ _ _ => KListener
  | ApplicationListenerRule _ _ => KListenerRule
  | ApplicationTargetGroup _ => KTargetGroup
  | Cluster _ => KCluster
  | FargateTaskDefinition _ => KTaskDefinition
  | ContainerDefinition _ _ _ => KContainer
  | FargateService _ _ => KService
  | ARecord _ => KARecord
  end.

Definition Kind_eqb (a b : Kind) : bool :=
  match a, b with
  | KVpc, KVpc | KSecurityGroup, KSecurityGroup | KHostedZone, KHostedZone
  | KCertificate, KCertificate | KLoadBalancer, KLoadBalancer
  | KListener, KListener | KListenerRule, KListenerRule
  | KTargetGroup, KTargetGroup | KCluster, KCluster
  | KTaskDefinition, KTaskDefinition | KContainer, KContainer
  | KService, KService | KARecord, KARecord => true
  | _, _ => false
  end.

Definition certificateReferences (certs : list ListenerCertificate.t) : list (Ref * Kind) :=
  flat_map
    (fun lc =>
       match ListenerCertificate.certificateArn lc with
       | certificateArn_of r => [(r, KCertificate)]
       | ArnLiteral _ => []
       end)
    certs.

(** The constructs a construct is handed when it is created, in its
    properties or as its parent, each with the kind its place asks for. *)
Definition propReferences (c : Construct) : list (Ref * Kind) :=
  match c with
  | Vpc _ => []
  | SecurityGroup p _ => [(SecurityGroupProps.vpc p, KVpc)]
  | HostedZoneLookup _ _ _ => []
  | DnsValidatedCertificate p => [(DnsValidatedCertificateProps.hostedZone p, KHostedZone)]
  | ApplicationLoadBalancer p =>
      [(ApplicationLoadBalancerProps.vpc p, KVpc);
       (ApplicationLoadBalancerProps.securityGroup p, KSecurityGroup)]
  | ApplicationListener lb p _ =>
      (lb, KLoadBalancer) ::
      certificateReferences (BaseApplicationListenerProps.certificates p)
  | ApplicationListenerRule l p =>
      (l, KListener) ::
      map (fun tg => (tg, KTargetGroup)) (AddApplicationTargetGroupsProps.targetGroups p)
  | ApplicationTargetGroup p => [(ApplicationTargetGroupProps.vpc p, KVpc)]
  | Cluster p => [(ClusterProps.vpc p, KVpc)]
  | FargateTaskDefinition _ => []
  | ContainerDefinition td _ _ => [(td, KTaskDefinition)]
  | FargateService p _ =>
      (FargateServiceProps.cluster p, KCluster) ::
      (FargateServiceProps.taskDefinition p, KTaskDefinition) ::
      map (fun sg => (sg, KSecurityGroup)) (FargateServiceProps.securityGroups p)
  | ARecord p =>
      (ARecordProps.zone p, KHostedZone) ::
      match ARecordProps.target p with
      | RecordTarget.fromAlias (LoadBalancerTarget alb) => [(alb, KLoadBalancer)]
      | _ => []
      end
  end.

(** The constructs a construct is handed later, by a mutating method:
    the target groups of a listener's default action and the target groups a
    service is attached to. *)
Definition addedReferences (c : Construct) : list (Ref * Kind) :=
  match c with
  | ApplicationListener _ _ (Some (forward tgs)) => map (fun tg => (tg, KTargetGroup)) tgs
  | FargateService _ lbs => map (fun tg => (tg, KTargetGroup)) lbs
  | _ => []
  end.

(** The reference denotes a construct of the tree, of the kind asked for. *)
Definition resolves (t : Tree) (rk : Ref * Kind) : bool :=
  match lookup (fst rk) t with
  | Some c => Kind_eqb (kindOf c) (snd rk)
  | None => false
  end.

Definition wellReferenced (t : Tree) : bool :=
  forallb
    (fun rc =>
       forallb (resolves t) (propReferences (snd rc) ++ addedReferences (snd rc))%list)
    t.

(** Every construct of [t] has the references [refs] gives it among the
    constructs created before it ([before], then the part of [t] in front
    of it). *)
Fixpoint inOrder (refs : Construct -> list (Ref * Kind)) (before t : Tree) : bool :=
  match t with
  | [] => true
  | rc :: t' =>
      forallb (resolves before) (refs (snd rc)) && inOrder refs (before ++ [rc])%list t'
  end.

(** ** The network *)

Definition asVpc (c : Construct) :=
  match c with Vpc p => Some p | _ => None end.
Definition asCluster (c : Construct) :=
  match c with Cluster p => Some p | _ => None end.
Definition asHostedZone (c : Construct) :=
  match c with
  | HostedZoneLookup q account region => Some (q, account, region)
  | _ => None
  end.

(** The network a construct is placed in, for the kinds that take one. *)
Definition vpcOf (c : Construct) : option Ref :=
  match c with
  | SecurityGroup p _ => Some (SecurityGroupProps.vpc p)
  | ApplicationLoadBalancer p => Some (ApplicationLoadBalancerProps.vpc p)
  | ApplicationTargetGroup p => Some (ApplicationTargetGroupProps.vpc p)
  | Cluster p => Some (ClusterProps.vpc p)
  | _ => None
  end.

(** The security groups a construct is given, for the kinds that take some. *)
Definition securityGroupsOf (c : Construct) : option (list Ref) :=
  match c with
  | ApplicationLoadBalancer p => Some [ApplicationLoadBalancerProps.securityGroup p]
  | FargateService p _ => Some (FargateServiceProps.securityGroups p)
  | _ => None
  end.

(** The length of the prefix of an address block written [address/length]. *)
Definition cidrPrefixLength (cidr : string) : option Z :=
  match split_at "/"%char EmptyString cidr with
  | [_; len] => number len
  | _ => None
  end.

(** Every subnet group asks for blocks no larger than the network and no
    smaller than one address. *)
Definition subnetGroupsFit (p : VpcProps.t) : bool :=
  match cidrPrefixLength (VpcProps.cidr p) with
  | Some len =>
      forallb
        (fun g =>
           (len <=? SubnetConfiguration.cidrMask g) &&
           (SubnetConfiguration.cidrMask g <=? 32))
        (VpcProps.subnetConfiguration p)
  | None => false
  end.

Fixpoint nodupb {A} (eqb : A -> A -> bool) (l : list A) : bool :=
  match l with
  | [] => true
  | x :: l' => negb (existsb (eqb x) l') && nodupb eqb l'
  end.

Definition subnetTypes (p : VpcProps.t) : list SubnetType :=
  map SubnetConfiguration.subnetType (VpcProps.subnetConfiguration p).

Definition subnetGroupNames (p : VpcProps.t) : list string :=
  map SubnetConfiguration.name (VpcProps.subnetConfiguration p).

(** The display names of a tree, in the order of creation. *)
Definition displayNames (t : Tree) : list string :=
  flat_map
    (fun rc =>
       match displayName (snd rc) with
       | Some n => [n]
       | None => []
       end)
    t.

(** ** Ports *)

(** The rule lets TCP traffic to [port] in. *)
Definition admits (rule : IngressRule.t) (port : Z) : bool :=
  match Port.protocol (IngressRule.connection rule) with
  | TCP | ALL =>
      (Port.fromPort (IngressRule.connection rule) <=? port) &&
      (port <=? Port.toPort (IngressRule.connection rule))
  | UDP => false
  end.

(** The rule opens the one port [port] and no other. *)
Definition opensOnly (rule : IngressRule.t) (port : Z) : bool :=
  (Port.fromPort (IngressRule.connection rule) =? port) &&
  (Port.toPort (IngressRule.connection rule) =? port).

(** * Properties *)

(** ** Ids and names *)

Lemma isNameChar_not_slash (c : ascii) :
  isNameChar c = true -> Ascii.eqb c "/" = false.
Proof.
  intros H. destruct (Ascii.eqb_spec c "/") as [->|]; [discriminate H | reflexivity].
Qed.

Lemma isNameChar_not_dollar (c : ascii) :
  isNameChar c = true -> Ascii.eqb "$" c = false.
Proof.
  intros H. destruct (Ascii.eqb_spec "$" c) as [<-|]; [discriminate H | reflexivity].
Qed.

Lemma isLetter_isNameChar (c : ascii) :
  isLetter c = true -> isNameChar c = true.
Proof. intros H. unfold isNameChar. rewrite H. reflexivity. Qed.

(** An id made of letters, digits and hyphens is kept as it is. *)
Lemma sanitizeId_nameChars (s : string) :
  allChars isNameChar s = true -> sanitizeId s = s.
Proof.
  induction s as [|c s IH]; simpl; intros H; [reflexivity|].
  apply andb_true_iff in H. destruct H as [Hc Hs].
  rewrite (isNameChar_not_slash c Hc), (IH Hs). reflexivity.
Qed.

Lemma validStackName_nameChars (s : string) :
  validStackName s = true -> allChars isNameChar s = true.
Proof.
  destruct s as [|c s]; simpl; intros H; [discriminate H|].
  apply andb_true_iff in H. destruct H as [Hc Hs].
  rewrite (isLetter_isNameChar c Hc), Hs. reflexivity.
Qed.

Lemma validStackName_not_empty (s : string) :
  validStackName s = true -> String.eqb s EmptyString = false.
Proof. destruct s; simpl; intros H; [discriminate H | reflexivity]. Qed.

(** A name made of letters, digits and hyphens holds no token. *)
Lemma nameChars_resolved (s : string) :
  allChars isNameChar s = true -> isUnresolved s = false.
Proof.
  induction s as [|c s IH]; intros H; [reflexivity|].
  simpl in H. apply andb_true_iff in H. destruct H as [Hc Hs].
  cbn [isUnresolved startsWith]. rewrite (isNameChar_not_dollar c Hc), (IH Hs).
  reflexivity.
Qed.

Lemma plainName_resolved (s : string) :
  plainName s = true -> isUnresolved s = false.
Proof.
  unfold plainName. intros H. apply andb_true_iff in H.
  apply nameChars_resolved, H.
Qed.

Lemma constructible_parts {v} (scope : App v) (id account region : string) :
  constructible scope id account region = true ->
  hasChild scope id = false /\ validStackName id = true /\
  isUnresolved account = false /\ isUnresolved region = false.
Proof.
  unfold constructible. intros H.
  apply andb_true_iff in H. destruct H as [H Hr].
  apply andb_true_iff in H. destruct H as [H Ha].
  apply andb_true_iff in H. destruct H as [Hf Hid].
  apply negb_true_iff in Hf.
  auto using plainName_resolved.
Qed.

(** ** Running a constructor *)

(** Runs the program of a goal, with the account and the region known to
    be specified. *)
Ltac run_with Ha Hr :=
  cbv -[isUnresolved]; rewrite ?Ha, ?Hr; cbv -[isUnresolved];
  lazymatch goal with
  | |- context [isUnresolved _] => fail "account or region not known to be specified"
  | |- _ => idtac
  end.

(** In an environment with an account and a region both constructor
    bodies run to the end. *)
Lemma constructor_runs (v : Variant) (account region : string) :
  isUnresolved account = false ->
  isUnresolved region = false ->
  constructorOf v (mkContext v (envOf (deployedTo account region))) [] =
    OK (tt, declared v account region).
Proof.
  intros Ha Hr. unfold declared, synthesized.
  destruct v; run_with Ha Hr; reflexivity.
Qed.

Lemma new_Stack_ok (v : Variant) (body : M unit) (scope : App v) (id : string)
    (props : option StackProps.t) (t : Tree) :
  hasChild scope id = false ->
  validStackName id = true ->
  body (mkContext v (envOf props)) [] = OK (tt, t) ->
  new_Stack v body scope id props =
    OK (mkStack id props t, mkApp v (stacks scope ++ [mkStack id props t])%list).
Proof.
  intros Hfresh Hid Hbody. unfold new_Stack.
  rewrite (validStackName_not_empty id Hid).
  rewrite (sanitizeId_nameChars id (validStackName_nameChars id Hid)).
  rewrite Hfresh, Hid, Hbody. reflexivity.
Qed.

Lemma stackOf_new_Stack (v : Variant) :
  stackOf v = new_Stack v (constructorOf v).
Proof. destruct v; reflexivity. Qed.

Lemma stackOf_ok (v : Variant) (scope : App v) (id account region : string) :
  constructible scope id account region = true ->
  stackOf v scope id (deployedTo account region) =
    OK (mkStack id (deployedTo account region) (declared v account region),
        mkApp v
          (stacks scope ++
           [mkStack id (deployedTo account region) (declared v account region)])%list).
Proof.
  intros H. destruct (constructible_parts scope id account region H)
    as (Hfresh & Hid & Ha & Hr).
  rewrite stackOf_new_Stack.
  apply new_Stack_ok; [exact Hfresh | exact Hid | apply constructor_runs; assumption].
Qed.

(** Replaces the tree of a variant by the tree itself. *)
Ltac expose_tree Ha Hr :=
  repeat match goal with
  | |- context [declared ?v ?a ?r] =>
      let T := fresh "T" in
      let HT := fresh "HT" in
      evar (T : Tree);
      assert (HT : declared v a r = T)
        by (unfold declared, synthesized; run_with Ha Hr; subst T; reflexivity);
      rewrite HT; subst T; clear HT
  end.

(** Sets the stack of a goal [exists this app', stackOf ... = OK _ /\ _]
    and leaves the property of its tree, with the tree written out. *)
Ltac constructed H :=
  let Hfresh := fresh "Hfresh" in
  let Hid := fresh "Hid" in
  let Ha := fresh "Ha" in
  let Hr := fresh "Hr" in
  pose proof H as Hfresh;
  apply constructible_parts in Hfresh;
  destruct Hfresh as (Hfresh & Hid & Ha & Hr);
  eexists; eexists; split;
  [ apply stackOf_ok; exact H
  | cbn [tree stackId stackProps];
    match goal with |- context [declared ?v _ _] => destruct v end;
    expose_tree Ha Hr ].

Ltac split_all :=
  repeat match goal with |- _ /\ _ => split end.

(** Settles a conjunction from left to right, computing each part. *)
Ltac run_all :=
  repeat match goal with
  | |- _ /\ _ => split; [lazy; reflexivity|]
  end;
  lazy; reflexivity.

(** ** The security policies *)

(** C2. In a stack that is constructed, the security group of the load
    balancer ([securityGroupELB]) is given exactly one ingress rule by the
    stack, and that rule lets TCP port 443 in from 0.0.0.0/0. *)
Theorem C2_balancer_policy_single_https_rule
    (v : Variant) (scope : App v) (id account region : string) :
  constructible scope id account region = true ->
  exists this app',
    stackOf v scope id (deployedTo account region) = OK (this, app') /\
    exists alb albProps sgProps rule,
      select asLoadBalancer (tree this) = [(alb, albProps)] /\
      ApplicationLoadBalancerProps.securityGroup albProps =
        [projectNameOf v ++ "-security-group-elb"] /\
      lookup [projectNameOf v ++ "-security-group-elb"] (tree this) =
        Some (SecurityGroup sgProps [rule]) /\
      Port.protocol (IngressRule.connection rule) = TCP /\
      Port.fromPort (IngressRule.connection rule) = 443 /\
      Port.toPort (IngressRule.connection rule) = 443 /\
      IngressRule.peer rule = Peer.ipv4 "0.0.0.0/0".
Proof.
  intros H. constructed H; do 4 eexists; run_all.
Qed.

Lemma C2_balancer_policy_single_https_rule_witness :
  constructible (new_App CdkV1) "AwsCdkEc2Stack" "123456789012" "eu-west-1" = true /\
  exists this app',
    Ec2Stack.AwsCdkEc2Stack (new_App CdkV1) "AwsCdkEc2Stack"
      (deployedTo "123456789012" "eu-west-1") = OK (this, app') /\
    exists alb albProps sgProps rule,
      select asLoadBalancer (tree this) = [(alb, albProps)] /\
      ApplicationLoadBalancerProps.securityGroup albProps =
        ["backend-api-security-group-elb"] /\
      lookup ["backend-api-security-group-elb"] (tree this) =
        Some (SecurityGroup sgProps [rule]) /\
      Port.protocol (IngressRule.connection rule) = TCP /\
      Port.fromPort (IngressRule.connection rule) = 443 /\
      Port.toPort (IngressRule.connection rule) = 443 /\
      IngressRule.peer rule = Peer.ipv4 "0.0.0.0/0".
Proof.
  split; [reflexivity|].
  apply (C2_balancer_policy_single_https_rule CdkV1 (new_App CdkV1)
           "AwsCdkEc2Stack" "123456789012" "eu-west-1").
  reflexivity.
Defined.

(** C3. In a stack that is constructed, the security group of the workload
    ([securityGroupApp]), the one the service is given, is given no ingress
    rule by the stack. *)
Theorem C3_workload_policy_no_ingress_rule
    (v : Variant) (scope : App v) (id account region : string) :
  constructible scope id account region = true ->
  exists this app',
    stackOf v scope id (deployedTo account region) = OK (this, app') /\
    exists service serviceProps attached sgProps,
      select asService (tree this) = [(service, (serviceProps, attached))] /\
      FargateServiceProps.securityGroups serviceProps =
        [[projectNameOf v ++ "-security-group-app"]] /\
      lookup [projectNameOf v ++ "-security-group-app"] (tree this) =
        Some (SecurityGroup sgProps []).
Proof.
  intros H. constructed H; do 4 eexists; run_all.
Qed.

Lemma C3_workload_policy_no_ingress_rule_witness :
  constructible (new_App CdkV2) "AwsCdkFargateStack" "123456789012" "us-west-2" = true /\
  exists this app',
    FargateStack.AwsCdkFargateStack (new_App CdkV2) "AwsCdkFargateStack"
      (deployedTo "123456789012" "us-west-2") = OK (this, app') /\
    exists service serviceProps attached sgProps,
      select asService (tree this) = [(service, (serviceProps, attached))] /\
      FargateServiceProps.securityGroups serviceProps =
        [["backend-api-security-group-app"]] /\
      lookup ["backend-api-security-group-app"] (tree this) =
        Some (SecurityGroup sgProps []).
Proof.
  split; [reflexivity|].
  apply (C3_workload_policy_no_ingress_rule CdkV2 (new_App CdkV2)
           "AwsCdkFargateStack" "123456789012" "us-west-2").
  reflexivity.
Defined.

(** ** The target group *)

Lemma acceptsCode_200 (code : Z) :
  acceptsCode "200" code = true <-> code = 200.
Proof.
  unfold acceptsCode.
  change (codeRanges "200") with [Some (200, 200)].
  cbn [existsb].
  rewrite orb_false_r, andb_true_iff, !Z.leb_le. lia.
Qed.

(** C5. In a stack that is constructed, the target group checks health at
    path [/], accepts the status codes {200}, forwards to port 3000, has
    targets given by address (IP) and speaks HTTP to them. *)
Theorem C5_target_group_health_check
    (v : Variant) (scope : App v) (id account region : string) :
  constructible scope id account region = true ->
  exists this app',
    stackOf v scope id (deployedTo account region) = OK (this, app') /\
    exists targetGroup tgProps,
      select asTargetGroup (tree this) = [(targetGroup, tgProps)] /\
      HealthCheck.path (ApplicationTargetGroupProps.healthCheck tgProps) = "/" /\
      HealthCheck.healthyHttpCodes (ApplicationTargetGroupProps.healthCheck tgProps) = "200" /\
      (forall code : Z,
         acceptsCode
           (HealthCheck.healthyHttpCodes (ApplicationTargetGroupProps.healthCheck tgProps))
           code = true <-> code = 200) /\
      ApplicationTargetGroupProps.port tgProps = 3000 /\
      ApplicationTargetGroupProps.targetType tgProps = IP /\
      ApplicationTargetGroupProps.protocol tgProps = HTTP.
Proof.
  intros H. constructed H; do 2 eexists; (split; [lazy; reflexivity|]);
    split_all; try reflexivity; intro code; apply acceptsCode_200.
Qed.

Lemma C5_target_group_health_check_witness :
  constructible (new_App CdkV1) "AwsCdkEc2Stack" "123456789012" "eu-west-1" = true /\
  exists this app',
    Ec2Stack.AwsCdkEc2Stack (new_App CdkV1) "AwsCdkEc2Stack"
      (deployedTo "123456789012" "eu-west-1") = OK (this, app') /\
    exists targetGroup tgProps,
      select asTargetGroup (tree this) = [(targetGroup, tgProps)] /\
      HealthCheck.path (ApplicationTargetGroupProps.healthCheck tgProps) = "/" /\
      HealthCheck.healthyHttpCodes (ApplicationTargetGroupProps.healthCheck tgProps) = "200" /\
      (forall code : Z,
         acceptsCode
           (HealthCheck.healthyHttpCodes (ApplicationTargetGroupProps.healthCheck tgProps))
           code = true <-> code = 200) /\
      ApplicationTargetGroupProps.port tgProps = 3000 /\
      ApplicationTargetGroupProps.targetType tgProps = IP /\
      ApplicationTargetGroupProps.protocol tgProps = HTTP.
Proof.
  split; [reflexivity|].
  apply (C5_target_group_health_check CdkV1 (new_App CdkV1)
           "AwsCdkEc2Stack" "123456789012" "eu-west-1").
  reflexivity.
Defined.

(** ** Task definition and service *)

(** C6. In a stack that is constructed, the task definition has exactly
    one container; its one port mapping has host port 3000 and container
    port 3000.  The task definition reserves 512 CPU units and 1024 MiB of
    memory, and the log driver of the container keeps logs for 30 days. *)
Theorem C6_task_definition_single_container
    (v : Variant) (scope : App v) (id account region : string) :
  constructible scope id account region = true ->
  exists this app',
    stackOf v scope id (deployedTo account region) = OK (this, app') /\
    exists taskDef taskDefProps container containerProps logProps,
      select asTaskDefinition (tree this) = [(taskDef, taskDefProps)] /\
      select asContainer (tree this) =
        [(container,
          (taskDef, containerProps,
           [ {| PortMapping.containerPort := 3000; PortMapping.hostPort := 3000 |} ]))] /\
      FargateTaskDefinitionProps.cpu taskDefProps = 512 /\
      FargateTaskDefinitionProps.memoryLimitMiB taskDefProps = 1024 /\
      ContainerDefinitionOptions.logging containerProps = awsLogs logProps /\
      RetentionDays_days (AwsLogDriverProps.logRetention logProps) = 30.
Proof.
  intros H. constructed H; do 5 eexists; run_all.
Qed.

Lemma C6_task_definition_single_container_witness :
  constructible (new_App CdkV1) "AwsCdkEc2Stack" "123456789012" "eu-west-1" = true /\
  exists this app',
    Ec2Stack.AwsCdkEc2Stack (new_App CdkV1) "AwsCdkEc2Stack"
      (deployedTo "123456789012" "eu-west-1") = OK (this, app') /\
    exists taskDef taskDefProps container containerProps logProps,
      select asTaskDefinition (tree this) = [(taskDef, taskDefProps)] /\
      select asContainer (tree this) =
        [(container,
          (taskDef, containerProps,
           [ {| PortMapping.containerPort := 3000; PortMapping.hostPort := 3000 |} ]))] /\
      FargateTaskDefinitionProps.cpu taskDefProps = 512 /\
      FargateTaskDefinitionProps.memoryLimitMiB taskDefProps = 1024 /\
      ContainerDefinitionOptions.logging containerProps = awsLogs logProps /\
      RetentionDays_days (AwsLogDriverProps.logRetention logProps) = 30.
Proof.
  split; [reflexivity|].
  apply (C6_task_definition_single_container CdkV1 (new_App CdkV1)
           "AwsCdkEc2Stack" "123456789012" "eu-west-1").
  reflexivity.
Defined.

(** C7. In a stack that is constructed, the service asks for one replica,
    is given the security group of the workload ([securityGroupApp]) and no
    other, and is registered with the target group, the one target group of
    the stack, to which the listener forwards. *)
Theorem C7_service_replicas_policy_target
    (v : Variant) (scope : App v) (id account region : string) :
  constructible scope id account region = true ->
  exists this app',
    stackOf v scope id (deployedTo account region) = OK (this, app') /\
    exists service serviceProps targetGroup tgProps listener alb listenerProps sgProps rules,
      select asService (tree this) = [(service, (serviceProps, [targetGroup]))] /\
      select asTargetGroup (tree this) = [(targetGroup, tgProps)] /\
      select asListener (tree this) =
        [(listener, (alb, listenerProps, Some (forward [targetGroup])))] /\
      FargateServiceProps.desiredCount serviceProps = 1 /\
      FargateServiceProps.securityGroups serviceProps =
        [[projectNameOf v ++ "-security-group-app"]] /\
      lookup [projectNameOf v ++ "-security-group-app"] (tree this) =
        Some (SecurityGroup sgProps rules) /\
      SecurityGroupProps.securityGroupName sgProps =
        projectNameOf v ++ "-security-group-app".
Proof.
  intros H. constructed H; do 9 eexists; run_all.
Qed.

Lemma C7_service_replicas_policy_target_witness :
  constructible (new_App CdkV1) "AwsCdkEc2Stack" "123456789012" "eu-west-1" = true /\
  exists this app',
    Ec2Stack.AwsCdkEc2Stack (new_App CdkV1) "AwsCdkEc2Stack"
      (deployedTo "123456789012" "eu-west-1") = OK (this, app') /\
    exists service serviceProps targetGroup tgProps listener alb listenerProps sgProps rules,
      select asService (tree this) = [(service, (serviceProps, [targetGroup]))] /\
      select asTargetGroup (tree this) = [(targetGroup, tgProps)] /\
      select asListener (tree this) =
        [(listener, (alb, listenerProps, Some (forward [targetGroup])))] /\
      FargateServiceProps.desiredCount serviceProps = 1 /\
      FargateServiceProps.securityGroups serviceProps =
        [["backend-api-security-group-app"]] /\
      lookup ["backend-api-security-group-app"] (tree this) =
        Some (SecurityGroup sgProps rules) /\
      SecurityGroupProps.securityGroupName sgProps =
        "backend-api-security-group-app".
Proof.
  split; [reflexivity|].
  apply (C7_service_replicas_policy_target CdkV1 (new_App CdkV1)
           "AwsCdkEc2Stack" "123456789012" "eu-west-1").
  reflexivity.
Defined.

(** ** Load balancer and DNS record *)

(** C9. In a stack that is constructed, the load balancer has exactly one
    listener.  It listens on port 443 and presents the ARN of the
    certificate the stack issues; its default action forwards to the one
    target group of the stack, and no listener rule sends traffic anywhere
    else. *)
Theorem C9_single_https_listener_forwards
    (v : Variant) (scope : App v) (id account region : string) :
  constructible scope id account region = true ->
  exists this app',
    stackOf v scope id (deployedTo account region) = OK (this, app') /\
    exists alb albProps listener cert certProps targetGroup tgProps,
      select asLoadBalancer (tree this) = [(alb, albProps)] /\
      select asCertificate (tree this) = [(cert, certProps)] /\
      select asTargetGroup (tree this) = [(targetGroup, tgProps)] /\
      select asListener (tree this) =
        [(listener,
          (alb,
           {| BaseApplicationListenerProps.port := 443;
              BaseApplicationListenerProps.certificates :=
                [ {| ListenerCertificate.certificateArn := certificateArn_of cert |} ] |},
           Some (forward [targetGroup])))] /\
      select asListenerRule (tree this) = [].
Proof.
  intros H. constructed H; do 7 eexists; run_all.
Qed.

Lemma C9_single_https_listener_forwards_witness :
  constructible (new_App CdkV1) "AwsCdkEc2Stack" "123456789012" "eu-west-1" = true /\
  exists this app',
    Ec2Stack.AwsCdkEc2Stack (new_App CdkV1) "AwsCdkEc2Stack"
      (deployedTo "123456789012" "eu-west-1") = OK (this, app') /\
    exists alb albProps listener cert certProps targetGroup tgProps,
      select asLoadBalancer (tree this) = [(alb, albProps)] /\
      select asCertificate (tree this) = [(cert, certProps)] /\
      select asTargetGroup (tree this) = [(targetGroup, tgProps)] /\
      select asListener (tree this) =
        [(listener,
          (alb,
           {| BaseApplicationListenerProps.port := 443;
              BaseApplicationListenerProps.certificates :=
                [ {| ListenerCertificate.certificateArn := certificateArn_of cert |} ] |},
           Some (forward [targetGroup])))] /\
      select asListenerRule (tree this) = [].
Proof.
  split; [reflexivity|].
  apply (C9_single_https_listener_forwards CdkV1 (new_App CdkV1)
           "AwsCdkEc2Stack" "123456789012" "eu-west-1").
  reflexivity.
Defined.

(** C8. In a stack that is constructed, the DNS record is named
    [backend.<domain>] for the domain of the stack, lies in the hosted zone
    the stack looks up for that domain, and its target is an alias of the
    load balancer, not a list of addresses. *)
Theorem C8_dns_record_alias
    (v : Variant) (scope : App v) (id account region : string) :
  constructible scope id account region = true ->
  exists this app',
    stackOf v scope id (deployedTo account region) = OK (this, app') /\
    exists record recordProps alb albProps,
      select asARecord (tree this) = [(record, recordProps)] /\
      select asLoadBalancer (tree this) = [(alb, albProps)] /\
      ARecordProps.recordName recordProps = "backend." ++ domainNameOf v /\
      lookup (ARecordProps.zone recordProps) (tree this) =
        Some (HostedZoneLookup
                {| HostedZoneProviderProps.domainName := domainNameOf v |}
                account region) /\
      ARecordProps.target recordProps = RecordTarget.fromAlias (LoadBalancerTarget alb) /\
      (forall ipAddresses,
         ARecordProps.target recordProps <> RecordTarget.fromIpAddresses ipAddresses).
Proof.
  intros H. constructed H; do 4 eexists; (split; [lazy; reflexivity|]);
    split_all; try (lazy; reflexivity); intros ips; discriminate.
Qed.

Lemma C8_dns_record_alias_witness :
  constructible (new_App CdkV1) "AwsCdkEc2Stack" "123456789012" "eu-west-1" = true /\
  exists this app',
    Ec2Stack.AwsCdkEc2Stack (new_App CdkV1) "AwsCdkEc2Stack"
      (deployedTo "123456789012" "eu-west-1") = OK (this, app') /\
    exists record recordProps alb albProps,
      select asARecord (tree this) = [(record, recordProps)] /\
      select asLoadBalancer (tree this) = [(alb, albProps)] /\
      ARecordProps.recordName recordProps = "backend.nikolatec.com" /\
      lookup (ARecordProps.zone recordProps) (tree this) =
        Some (HostedZoneLookup
                {| HostedZoneProviderProps.domainName := "nikolatec.com" |}
                "123456789012" "eu-west-1") /\
      ARecordProps.target recordProps = RecordTarget.fromAlias (LoadBalancerTarget alb) /\
      (forall ipAddresses,
         ARecordProps.target recordProps <> RecordTarget.fromIpAddresses ipAddresses).
Proof.
  split; [reflexivity|].
  apply (C8_dns_record_alias CdkV1 (new_App CdkV1)
           "AwsCdkEc2Stack" "123456789012" "eu-west-1").
  reflexivity.
Defined.

(** ** The certificate *)

(** C10. Whatever the scope and the id of the stack are and whatever
    account and region it is deployed to, a stack that is constructed issues
    one certificate and its region is ["us-east-1"], while the hosted zone
    is looked up in the account and the region of the stack. *)
Theorem C10_certificate_region_fixed
    (v : Variant) (scope : App v) (id account region : string) :
  constructible scope id account region = true ->
  exists this app',
    stackOf v scope id (deployedTo account region) = OK (this, app') /\
    stackProps this = deployedTo account region /\
    exists zone query,
      select asHostedZone (tree this) = [(zone, (query, account, region))] /\
      map (fun c => DnsValidatedCertificateProps.region (snd c))
          (select asCertificate (tree this)) = ["us-east-1"].
Proof.
  intros H. constructed H; (split; [reflexivity|]); do 2 eexists; run_all.
Qed.

Lemma C10_certificate_region_fixed_witness :
  constructible (new_App CdkV2) "AwsCdkFargateStack" "123456789012" "us-west-2" = true /\
  exists this app',
    FargateStack.AwsCdkFargateStack (new_App CdkV2) "AwsCdkFargateStack"
      (deployedTo "123456789012" "us-west-2") = OK (this, app') /\
    stackProps this = deployedTo "123456789012" "us-west-2" /\
    exists zone query,
      select asHostedZone (tree this) = [(zone, (query, "123456789012", "us-west-2"))] /\
      map (fun c => DnsValidatedCertificateProps.region (snd c))
          (select asCertificate (tree this)) = ["us-east-1"].
Proof.
  split; [reflexivity|].
  apply (C10_certificate_region_fixed CdkV2 (new_App CdkV2)
           "AwsCdkFargateStack" "123456789012" "us-west-2").
  reflexivity.
Defined.

(** ** Names *)




(** ** The two variants *)

(** C1. Built under the same id for the same account and region, each in
    an application of its own generation, the two variants leave the same
    constructs, in the same order and at the same paths, with the same
    properties and the same additions, but for the display name of the
    certificate: the first variant sets none, the second sets one. *)
Theorem C1_variants_differ_in_certificate_name_only
    (scope1 : App CdkV1) (scope2 : App CdkV2) (id account region : string) :
  constructible scope1 id account region = true ->
  constructible scope2 id account region = true ->
  exists s1 app1 s2 app2,
    Ec2Stack.AwsCdkEc2Stack scope1 id (deployedTo account region) = OK (s1, app1) /\
    FargateStack.AwsCdkFargateStack scope2 id (deployedTo account region) = OK (s2, app2) /\
    stackId s1 = stackId s2 /\
    stackProps s1 = stackProps s2 /\
    Tree_withoutCertificateName (tree s2) = tree s1 /\
    Tree_withoutCertificateName (tree s1) = tree s1 /\
    map (fun c => DnsValidatedCertificateProps.certificateName (snd c))
        (select asCertificate (tree s1)) = [None] /\
    map (fun c => DnsValidatedCertificateProps.certificateName (snd c))
        (select asCertificate (tree s2)) = [Some "backend-api-certificate"].
Proof.
  intros H1 H2.
  destruct (constructible_parts scope1 id account region H1) as (_ & _ & Ha & Hr).
  do 4 eexists.
  split; [apply (stackOf_ok CdkV1), H1|].
  split; [apply (stackOf_ok CdkV2), H2|].
  cbn [tree stackId stackProps]. expose_tree Ha Hr. run_all.
Qed.

Lemma C1_variants_differ_in_certificate_name_only_witness :
  constructible (new_App CdkV1) "AwsCdkEc2Stack" "123456789012" "eu-west-1" = true /\
  constructible (new_App CdkV2) "AwsCdkEc2Stack" "123456789012" "eu-west-1" = true /\
  exists s1 app1 s2 app2,
    Ec2Stack.AwsCdkEc2Stack (new_App CdkV1) "AwsCdkEc2Stack"
      (deployedTo "123456789012" "eu-west-1") = OK (s1, app1) /\
    FargateStack.AwsCdkFargateStack (new_App CdkV2) "AwsCdkEc2Stack"
      (deployedTo "123456789012" "eu-west-1") = OK (s2, app2) /\
    stackId s1 = stackId s2 /\
    stackProps s1 = stackProps s2 /\
    Tree_withoutCertificateName (tree s2) = tree s1 /\
    Tree_withoutCertificateName (tree s1) = tree s1 /\
    map (fun c => DnsValidatedCertificateProps.certificateName (snd c))
        (select asCertificate (tree s1)) = [None] /\
    map (fun c => DnsValidatedCertificateProps.certificateName (snd c))
        (select asCertificate (tree s2)) = [Some "backend-api-certificate"].
Proof.
  split; [reflexivity|]. split; [reflexivity|].
  apply (C1_variants_differ_in_certificate_name_only (new_App CdkV1) (new_App CdkV2)
           "AwsCdkEc2Stack" "123456789012" "eu-west-1");
    reflexivity.
Defined.

(** * Further properties of the stack *)

(** ** The network *)

(** X1. A stack that is constructed has one network.  Its address block
    has a prefix of 16 bits, its subnet groups are one public and one
    isolated group (none that needs a NAT gateway), each asks for blocks that
    fit into the network, the two groups have different names, and name
    resolution is switched on. *)
Theorem X1_network_subnet_groups
    (v : Variant) (scope : App v) (id account region : string) :
  constructible scope id account region = true ->
  exists this app',
    stackOf v scope id (deployedTo account region) = OK (this, app') /\
    exists vpc vpcProps,
      select asVpc (tree this) = [(vpc, vpcProps)] /\
      cidrPrefixLength (VpcProps.cidr vpcProps) = Some 16 /\
      subnetGroupsFit vpcProps = true /\
      subnetTypes vpcProps = [PUBLIC; PRIVATE_ISOLATED] /\
      nodupb String.eqb (subnetGroupNames vpcProps) = true /\
      VpcProps.enableDnsHostnames vpcProps = true /\
      VpcProps.enableDnsSupport vpcProps = true.
Proof.
  intros H. constructed H; do 2 eexists; run_all.
Qed.

Lemma X1_network_subnet_groups_witness :
  constructible (new_App CdkV1) "AwsCdkEc2Stack" "123456789012" "eu-west-1" = true /\
  exists this app',
    Ec2Stack.AwsCdkEc2Stack (new_App CdkV1) "AwsCdkEc2Stack"
      (deployedTo "123456789012" "eu-west-1") = OK (this, app') /\
    exists vpc vpcProps,
      select asVpc (tree this) = [(vpc, vpcProps)] /\
      cidrPrefixLength (VpcProps.cidr vpcProps) = Some 16 /\
      subnetGroupsFit vpcProps = true /\
      subnetTypes vpcProps = [PUBLIC; PRIVATE_ISOLATED] /\
      nodupb String.eqb (subnetGroupNames vpcProps) = true /\
      VpcProps.enableDnsHostnames vpcProps = true /\
      VpcProps.enableDnsSupport vpcProps = true.
Proof.
  split; [reflexivity|].
  apply (X1_network_subnet_groups CdkV1 (new_App CdkV1)
           "AwsCdkEc2Stack" "123456789012" "eu-west-1").
  reflexivity.
Defined.

(** X2. In a stack that is constructed, everything that is placed in a
    network is placed in the one network of the stack: the two security
    groups, the load balancer, the target group and the cluster. *)
Theorem X2_one_network_for_all
    (v : Variant) (scope : App v) (id account region : string) :
  constructible scope id account region = true ->
  exists this app',
    stackOf v scope id (deployedTo account region) = OK (this, app') /\
    exists vpc vpcProps,
      select asVpc (tree this) = [(vpc, vpcProps)] /\
      select vpcOf (tree this) =
        [ ([projectNameOf v ++ "-security-group-elb"], vpc);
          ([projectNameOf v ++ "-security-group-app"], vpc);
          ([projectNameOf v ++ "-alb"], vpc);
          ([projectNameOf v ++ "-target-group"], vpc);
          ([projectNameOf v ++ "-cluster"], vpc) ].
Proof.
  intros H. constructed H; do 2 eexists; run_all.
Qed.

Lemma X2_one_network_for_all_witness :
  constructible (new_App CdkV1) "AwsCdkEc2Stack" "123456789012" "eu-west-1" = true /\
  exists this app',
    Ec2Stack.AwsCdkEc2Stack (new_App CdkV1) "AwsCdkEc2Stack"
      (deployedTo "123456789012" "eu-west-1") = OK (this, app') /\
    exists vpc vpcProps,
      select asVpc (tree this) = [(vpc, vpcProps)] /\
      select vpcOf (tree this) =
        [ (["backend-api-security-group-elb"], vpc);
          (["backend-api-security-group-app"], vpc);
          (["backend-api-alb"], vpc);
          (["backend-api-target-group"], vpc);
          (["backend-api-cluster"], vpc) ].
Proof.
  split; [reflexivity|].
  apply (X2_one_network_for_all CdkV1 (new_App CdkV1)
           "AwsCdkEc2Stack" "123456789012" "eu-west-1").
  reflexivity.
Defined.

(** ** References *)

(** X3. No reference of a stack that is constructed dangles: every
    construct a construct is handed, at its creation or later, is a construct
    of the tree and of the kind its place asks for.  What a construct is
    handed at its creation was created before it.  What it is handed later
    need not be: the listener is created before the target group it forwards
    to. *)
Theorem X3_references_resolve_in_creation_order
    (v : Variant) (scope : App v) (id account region : string) :
  constructible scope id account region = true ->
  exists this app',
    stackOf v scope id (deployedTo account region) = OK (this, app') /\
    wellReferenced (tree this) = true /\
    inOrder propReferences [] (tree this) = true /\
    inOrder addedReferences [] (tree this) = false.
Proof.
  intros H. constructed H; run_all.
Qed.

Lemma X3_references_resolve_in_creation_order_witness :
  constructible (new_App CdkV1) "AwsCdkEc2Stack" "123456789012" "eu-west-1" = true /\
  exists this app',
    Ec2Stack.AwsCdkEc2Stack (new_App CdkV1) "AwsCdkEc2Stack"
      (deployedTo "123456789012" "eu-west-1") = OK (this, app') /\
    wellReferenced (tree this) = true /\
    inOrder propReferences [] (tree this) = true /\
    inOrder addedReferences [] (tree this) = false.
Proof.
  split; [reflexivity|].
  apply (X3_references_resolve_in_creation_order CdkV1 (new_App CdkV1)
           "AwsCdkEc2Stack" "123456789012" "eu-west-1").
  reflexivity.
Defined.

(** ** Ports *)

(** X4. In a stack that is constructed, the port the target group forwards
    to is the port the container listens on: the service is attached to the
    target group and runs the task definition whose one container maps that
    port, host port and container port alike, and the target group addresses
    its targets by IP. *)
Theorem X4_target_port_is_container_port
    (v : Variant) (scope : App v) (id account region : string) :
  constructible scope id account region = true ->
  exists this app',
    stackOf v scope id (deployedTo account region) = OK (this, app') /\
    exists service serviceProps targetGroup tgProps container containerProps mappings,
      select asService (tree this) = [(service, (serviceProps, [targetGroup]))] /\
      lookup targetGroup (tree this) = Some (ApplicationTargetGroup tgProps) /\
      select asContainer (tree this) =
        [(container,
          (FargateServiceProps.taskDefinition serviceProps, containerProps, mappings))] /\
      map PortMapping.containerPort mappings = [ApplicationTargetGroupProps.port tgProps] /\
      map PortMapping.hostPort mappings = map PortMapping.containerPort mappings /\
      ApplicationTargetGroupProps.targetType tgProps = IP.
Proof.
  intros H. constructed H; do 7 eexists; run_all.
Qed.

Lemma X4_target_port_is_container_port_witness :
  constructible (new_App CdkV1) "AwsCdkEc2Stack" "123456789012" "eu-west-1" = true /\
  exists this app',
    Ec2Stack.AwsCdkEc2Stack (new_App CdkV1) "AwsCdkEc2Stack"
      (deployedTo "123456789012" "eu-west-1") = OK (this, app') /\
    exists service serviceProps targetGroup tgProps container containerProps mappings,
      select asService (tree this) = [(service, (serviceProps, [targetGroup]))] /\
      lookup targetGroup (tree this) = Some (ApplicationTargetGroup tgProps) /\
      select asContainer (tree this) =
        [(container,
          (FargateServiceProps.taskDefinition serviceProps, containerProps, mappings))] /\
      map PortMapping.containerPort mappings = [ApplicationTargetGroupProps.port tgProps] /\
      map PortMapping.hostPort mappings = map PortMapping.containerPort mappings /\
      ApplicationTargetGroupProps.targetType tgProps = IP.
Proof.
  split; [reflexivity|].
  apply (X4_target_port_is_container_port CdkV1 (new_App CdkV1)
           "AwsCdkEc2Stack" "123456789012" "eu-west-1").
  reflexivity.
Defined.

(** X5. In a stack that is constructed, the load balancer faces the
    internet, and what its security group lets in is what its listener
    listens to: every ingress rule the stack gives the group opens the port
    of the listener and no other, and one of them admits that port. *)
Theorem X5_listener_port_is_the_open_port
    (v : Variant) (scope : App v) (id account region : string) :
  constructible scope id account region = true ->
  exists this app',
    stackOf v scope id (deployedTo account region) = OK (this, app') /\
    exists alb albProps listener listenerProps action sgProps rules,
      select asLoadBalancer (tree this) = [(alb, albProps)] /\
      ApplicationLoadBalancerProps.internetFacing albProps = true /\
      select asListener (tree this) = [(listener, (alb, listenerProps, action))] /\
      lookup (ApplicationLoadBalancerProps.securityGroup albProps) (tree this) =
        Some (SecurityGroup sgProps rules) /\
      forallb (fun r => opensOnly r (BaseApplicationListenerProps.port listenerProps))
        rules = true /\
      existsb (fun r => admits r (BaseApplicationListenerProps.port listenerProps))
        rules = true.
Proof.
  intros H. constructed H; do 7 eexists; run_all.
Qed.

Lemma X5_listener_port_is_the_open_port_witness :
  constructible (new_App CdkV1) "AwsCdkEc2Stack" "123456789012" "eu-west-1" = true /\
  exists this app',
    Ec2Stack.AwsCdkEc2Stack (new_App CdkV1) "AwsCdkEc2Stack"
      (deployedTo "123456789012" "eu-west-1") = OK (this, app') /\
    exists alb albProps listener listenerProps action sgProps rules,
      select asLoadBalancer (tree this) = [(alb, albProps)] /\
      ApplicationLoadBalancerProps.internetFacing albProps = true /\
      select asListener (tree this) = [(listener, (alb, listenerProps, action))] /\
      lookup (ApplicationLoadBalancerProps.securityGroup albProps) (tree this) =
        Some (SecurityGroup sgProps rules) /\
      forallb (fun r => opensOnly r (BaseApplicationListenerProps.port listenerProps))
        rules = true /\
      existsb (fun r => admits r (BaseApplicationListenerProps.port listenerProps))
        rules = true.
Proof.
  split; [reflexivity|].
  apply (X5_listener_port_is_the_open_port CdkV1 (new_App CdkV1)
           "AwsCdkEc2Stack" "123456789012" "eu-west-1").
  reflexivity.
Defined.

(** ** Security groups *)

(** X6. A stack that is constructed has two security groups and each is
    given to one construct: the first to the load balancer, the second to
    the service.  No construct has both, and the two are different
    constructs. *)
Theorem X6_security_groups_used_once
    (v : Variant) (scope : App v) (id account region : string) :
  constructible scope id account region = true ->
  exists this app',
    stackOf v scope id (deployedTo account region) = OK (this, app') /\
    map fst (select asSecurityGroup (tree this)) =
      [ [projectNameOf v ++ "-security-group-elb"]; [projectNameOf v ++ "-security-group-app"] ] /\
    select securityGroupsOf (tree this) =
      [ ([projectNameOf v ++ "-alb"], [[projectNameOf v ++ "-security-group-elb"]]);
        ([projectNameOf v ++ "-service"], [[projectNameOf v ++ "-security-group-app"]]) ] /\
    Ref_eqb [projectNameOf v ++ "-security-group-elb"] [projectNameOf v ++ "-security-group-app"] = false.
Proof.
  intros H. constructed H; run_all.
Qed.

Lemma X6_security_groups_used_once_witness :
  constructible (new_App CdkV1) "AwsCdkEc2Stack" "123456789012" "eu-west-1" = true /\
  exists this app',
    Ec2Stack.AwsCdkEc2Stack (new_App CdkV1) "AwsCdkEc2Stack"
      (deployedTo "123456789012" "eu-west-1") = OK (this, app') /\
    map fst (select asSecurityGroup (tree this)) =
      [ ["backend-api-security-group-elb"]; ["backend-api-security-group-app"] ] /\
    select securityGroupsOf (tree this) =
      [ (["backend-api-alb"], [["backend-api-security-group-elb"]]);
        (["backend-api-service"], [["backend-api-security-group-app"]]) ] /\
    Ref_eqb ["backend-api-security-group-elb"] ["backend-api-security-group-app"] = false.
Proof.
  split; [reflexivity|].
  apply (X6_security_groups_used_once CdkV1 (new_App CdkV1)
           "AwsCdkEc2Stack" "123456789012" "eu-west-1").
  reflexivity.
Defined.

(** ** Certificate, zone and record *)

(** X7. In a stack that is constructed, the certificate and the record lie
    in the same hosted zone, the one looked up for the domain.  The
    certificate is issued for the domain itself; the record names the host
    [backend] below it, which is not the name the certificate is issued
    for. *)
Theorem X7_certificate_domain_is_not_record_name
    (v : Variant) (scope : App v) (id account region : string) :
  constructible scope id account region = true ->
  exists this app',
    stackOf v scope id (deployedTo account region) = OK (this, app') /\
    exists zone cert certProps record recordProps,
      select asHostedZone (tree this) =
        [(zone, ({| HostedZoneProviderProps.domainName := domainNameOf v |}, account, region))] /\
      select asCertificate (tree this) = [(cert, certProps)] /\
      select asARecord (tree this) = [(record, recordProps)] /\
      DnsValidatedCertificateProps.hostedZone certProps = zone /\
      ARecordProps.zone recordProps = zone /\
      DnsValidatedCertificateProps.domainName certProps = domainNameOf v /\
      ARecordProps.recordName recordProps = "backend." ++ domainNameOf v /\
      String.eqb (ARecordProps.recordName recordProps)
        (DnsValidatedCertificateProps.domainName certProps) = false.
Proof.
  intros H. constructed H; do 5 eexists; run_all.
Qed.

Lemma X7_certificate_domain_is_not_record_name_witness :
  constructible (new_App CdkV1) "AwsCdkEc2Stack" "123456789012" "eu-west-1" = true /\
  exists this app',
    Ec2Stack.AwsCdkEc2Stack (new_App CdkV1) "AwsCdkEc2Stack"
      (deployedTo "123456789012" "eu-west-1") = OK (this, app') /\
    exists zone cert certProps record recordProps,
      select asHostedZone (tree this) =
        [(zone, ({| HostedZoneProviderProps.domainName := "nikolatec.com" |}, "123456789012", "eu-west-1"))] /\
      select asCertificate (tree this) = [(cert, certProps)] /\
      select asARecord (tree this) = [(record, recordProps)] /\
      DnsValidatedCertificateProps.hostedZone certProps = zone /\
      ARecordProps.zone recordProps = zone /\
      DnsValidatedCertificateProps.domainName certProps = "nikolatec.com" /\
      ARecordProps.recordName recordProps = "backend.nikolatec.com" /\
      String.eqb (ARecordProps.recordName recordProps)
        (DnsValidatedCertificateProps.domainName certProps) = false.
Proof.
  split; [reflexivity|].
  apply (X7_certificate_domain_is_not_record_name CdkV1 (new_App CdkV1)
           "AwsCdkEc2Stack" "123456789012" "eu-west-1").
  reflexivity.
Defined.

(** ** Names *)

Lemma Ref_eqb_refl (r : Ref) : Ref_eqb r r = true.
Proof.
  induction r as [|x r IH]; simpl; [reflexivity|].
  rewrite String.eqb_refl. exact IH.
Qed.

Lemma existsb_refl_In {A} (eqb : A -> A -> bool) (x : A) (l : list A) :
  (forall y, eqb y y = true) -> In x l -> existsb (eqb x) l = true.
Proof.
  intros Hrefl Hin. apply existsb_exists. exists x. split; [exact Hin | apply Hrefl].
Qed.

Lemma nodupb_NoDup {A} (eqb : A -> A -> bool) (l : list A) :
  (forall y, eqb y y = true) -> nodupb eqb l = true -> NoDup l.
Proof.
  intros Hrefl. induction l as [|x l IH]; simpl; intros H; [constructor|].
  apply andb_true_iff in H. destruct H as [Hx Hl].
  constructor; [|apply IH, Hl].
  intros Hin. rewrite (existsb_refl_In eqb x l Hrefl Hin) in Hx. discriminate Hx.
Qed.

(** X8. In a stack that is constructed no two constructs have the same
    path and no two display names are the same. *)
Theorem X8_paths_and_names_are_distinct
    (v : Variant) (scope : App v) (id account region : string) :
  constructible scope id account region = true ->
  exists this app',
    stackOf v scope id (deployedTo account region) = OK (this, app') /\
    NoDup (map fst (tree this)) /\
    NoDup (displayNames (tree this)).
Proof.
  intros H. constructed H; (split;
    [ apply (nodupb_NoDup Ref_eqb); [exact Ref_eqb_refl | lazy; reflexivity]
    | apply (nodupb_NoDup String.eqb); [exact String.eqb_refl | lazy; reflexivity] ]).
Qed.

Lemma X8_paths_and_names_are_distinct_witness :
  constructible (new_App CdkV2) "AwsCdkFargateStack" "123456789012" "us-west-2" = true /\
  exists this app',
    FargateStack.AwsCdkFargateStack (new_App CdkV2) "AwsCdkFargateStack"
      (deployedTo "123456789012" "us-west-2") = OK (this, app') /\
    NoDup (map fst (tree this)) /\
    NoDup (displayNames (tree this)).
Proof.
  split; [reflexivity|].
  apply (X8_paths_and_names_are_distinct CdkV2 (new_App CdkV2)
           "AwsCdkFargateStack" "123456789012" "us-west-2").
  reflexivity.
Defined.

(** ** Stacks in an application *)

Lemma hasChild_app {v} (scope : App v) (s : Stack) (name : string) :
  hasChild (mkApp v (stacks scope ++ [s])%list) name =
    hasChild scope name || String.eqb (stackId s) name.
Proof.
  unfold hasChild. cbn [stacks]. rewrite existsb_app. simpl.
  rewrite orb_false_r. reflexivity.
Qed.

(** X10. Two stacks of one class under different ids in one application,
    deployed to whatever accounts and regions, are both constructed, and the
    application then holds both.  Their constructs have the same paths and
    the same display names: nothing in a name depends on the id of the stack
    or on where it is deployed. *)
Theorem X10_two_stacks_declare_the_same_names
    (v : Variant) (scope : App v)
    (id account region id' account' region' : string) :
  constructible scope id account region = true ->
  constructible scope id' account' region' = true ->
  String.eqb id id' = false ->
  exists s1 app1 s2 app2,
    stackOf v scope id (deployedTo account region) = OK (s1, app1) /\
    stackOf v app1 id' (deployedTo account' region') = OK (s2, app2) /\
    stacks app2 = (stacks scope ++ [s1; s2])%list /\
    map fst (tree s1) = map fst (tree s2) /\
    displayNames (tree s1) = displayNames (tree s2) /\
    displayNames (Tree_withoutCertificateName (tree s1)) =
      map (String.append (projectNameOf v))
        [ "-vpc"; "-security-group-elb"; "-security-group-app"; "-alb";
          "-target-group"; "-cluster"; "-container"; "-service" ].
Proof.
  intros H1 H2 Hdiff.
  destruct (constructible_parts scope id account region H1) as (Hf1 & Hid1 & Ha & Hr).
  destruct (constructible_parts scope id' account' region' H2) as (Hf2 & Hid2 & Ha' & Hr').
  do 4 eexists.
  split; [apply stackOf_ok, H1|].
  split.
  { apply stackOf_ok. unfold constructible in *.
    rewrite hasChild_app, Hf2. cbn [stackId]. rewrite Hdiff.
    rewrite Hf2 in H2. exact H2. }
  cbn [tree stacks]. split; [rewrite <- app_assoc; reflexivity|].
  destruct v; expose_tree Ha Hr; expose_tree Ha' Hr'; run_all.
Qed.

Lemma X10_two_stacks_declare_the_same_names_witness :
  constructible (new_App CdkV1) "Staging" "123456789012" "eu-west-1" = true /\
  constructible (new_App CdkV1) "Production" "210987654321" "us-west-2" = true /\
  String.eqb "Staging" "Production" = false /\
  exists s1 app1 s2 app2,
    Ec2Stack.AwsCdkEc2Stack (new_App CdkV1) "Staging"
      (deployedTo "123456789012" "eu-west-1") = OK (s1, app1) /\
    Ec2Stack.AwsCdkEc2Stack app1 "Production"
      (deployedTo "210987654321" "us-west-2") = OK (s2, app2) /\
    stacks app2 = [s1; s2] /\
    map fst (tree s1) = map fst (tree s2) /\
    displayNames (tree s1) = displayNames (tree s2) /\
    displayNames (Tree_withoutCertificateName (tree s1)) =
      [ "backend-api-vpc"; "backend-api-security-group-elb";
        "backend-api-security-group-app"; "backend-api-alb";
        "backend-api-target-group"; "backend-api-cluster";
        "backend-api-container"; "backend-api-service" ].
Proof.
  split; [reflexivity|]. split; [reflexivity|]. split; [reflexivity|].
  apply (X10_two_stacks_declare_the_same_names CdkV1 (new_App CdkV1)
           "Staging" "123456789012" "eu-west-1"
           "Production" "210987654321" "us-west-2");
    reflexivity.
Defined.

(** ** The entry point *)

(** X11. A stack whose properties leave the account or the region open is
    not constructed: the lookup of the hosted zone refuses it, in both
    variants, whatever the scope and the id are.  The entry point is such a
    construction: it hands the class no properties at all. *)
Theorem X11_no_environment_no_stack
    (v : Variant) (scope : App v) (id : string) (props : option StackProps.t) :
  hasChild scope id = false ->
  validStackName id = true ->
  lacksAccountOrRegion props = true ->
  stackOf v scope id props = Err EnvironmentNotSpecified.
Proof.
  intros Hfresh Hid Hlacks.
  rewrite stackOf_new_Stack. unfold new_Stack.
  rewrite (validStackName_not_empty id Hid).
  rewrite (sanitizeId_nameChars id (validStackName_nameChars id Hid)).
  rewrite Hfresh, Hid. cbn [negb].
  destruct props as [[[[[a|] [r|]]|]]|]; try discriminate Hlacks;
    destruct v; cbv -[isUnresolved];
    try reflexivity;
    match goal with
    | |- context [isUnresolved ?s] => destruct (isUnresolved s); reflexivity
    end.
Qed.

Lemma X11_no_environment_no_stack_witness :
  hasChild (new_App CdkV1) "AwsCdkEc2Stack" = false /\
  validStackName "AwsCdkEc2Stack" = true /\
  lacksAccountOrRegion None = true /\
  Ec2Stack.main = Err EnvironmentNotSpecified.
Proof.
  split; [reflexivity|]. split; [reflexivity|]. split; [reflexivity|].
  apply (X11_no_environment_no_stack CdkV1 (new_App CdkV1) "AwsCdkEc2Stack" None);
    reflexivity.
Defined.
